(** * A task service: FastAPI + SQLModel over SQLite

    Shallow embedding of [app/models.py], [app/db.py] and [app/main.py].

    The three files are glue between a web framework, a validation
    library, an ORM session and a SQL store.  Each of those is given here
    by the small executable model the handlers need:

    - request bodies are JSON values ([json]);
    - [TaskCreate] is the validated creation payload, [Task] the table
      class, whose instances are both Python objects and rows;
    - the store is the content of [database.db]: the [task] table, or no
      table yet;
    - a handler runs in a state-and-exception monad over a [world]
      holding the committed store, the Python objects (by reference: the
      session and the handler share the [Task] they work on), the
      session's pending list, its connection and its transaction;
    - the engine is shared by all requests: between two requests it
      holds the file and, when it pools, the connection the last session
      gave back, with whatever transaction was left open on it. *)

From Stdlib Require Import ZArith List Lia.
From stdpp Require Import base option list strings pretty.

#[local] Set Warnings "-register-all".

Local Open Scope Z_scope.
Local Open Scope string_scope.
Local Open Scope list_scope.

(** ** JSON values *)

(** Numbers are kept to the integer literals; an object keeps its pairs
    in the order they were written. *)
Inductive json : Type :=
| JNull
| JBool (b : bool)
| JInt (n : Z)
| JStr (s : string)
| JArr (items : list json)
| JObj (fields : list (string * json)).

(** Reading a key of a parsed object: as in a Python [dict] built from
    the pairs in order, a repeated key keeps its last value. *)
Fixpoint obj_get (k : string) (fields : list (string * json)) : option json :=
  match fields with
  | [] => None
  | (k', v) :: rest =>
      match obj_get k rest with
      | Some v' => Some v'
      | None => if String.eqb k k' then Some v else None
      end
  end.

Definition json_get (k : string) (j : json) : option json :=
  match j with
  | JObj fields => obj_get k fields
  | _ => None
  end.

(** ** app/models.py *)

Module models.

(** What a field validator reports; the wording of the message is the
    validation library's and is left out. *)
Inductive error_type : Type :=
| missing            (* a required key is absent *)
| none_not_allowed   (* [null] for a field that is not [Optional] *)
| str_type           (* the value is not a string *)
| dict_type.         (* the body is not an object *)

(** One entry of a 422 response's [detail]: [loc] is the path of the
    offending field, starting with ["body"].  The other members of an
    entry (the message, and under the strict reading the offending
    input) are left out: two details equal here may differ in those. *)
Record validation_error : Type := ValidationError {
  loc : list string;
  type_ : error_type
}.

(** How the [str] annotation treats a JSON scalar that is not a string.
    The annotation alone does not say: the validation library rejects
    it in one major version ([strict_str]) and turns numbers and
    booleans into their text in the other ([coerce_str]).  The source
    pins neither, so the validator takes the reading as an argument. *)
Inductive str_mode : Type := strict_str | coerce_str.

(** Python's [str(b)] for a [bool]. *)
Definition py_str_bool (b : bool) : string :=
  if b then "True" else "False".

(** A field annotated [str].  [null] is refused under both readings,
    as a value that is no string under the strict one and as a [None]
    that is not allowed under the coercing one. *)
Definition str_validator (m : str_mode) (v : json) : error_type + string :=
  match v with
  | JStr s => inr s
  | JNull =>
      match m with
      | strict_str => inl str_type
      | coerce_str => inl none_not_allowed
      end
  | JInt n =>
      match m with
      | strict_str => inl str_type
      | coerce_str => inr (pretty n)
      end
  | JBool b =>
      match m with
      | strict_str => inl str_type
      | coerce_str => inr (py_str_bool b)
      end
  | JArr _ | JObj _ => inl str_type
  end.

(** A field annotated [Optional[str] = None]: an absent key and [null]
    both give [None]. *)
Definition optional_str_validator (m : str_mode) (v : option json)
  : error_type + option string :=
  match v with
  | None | Some JNull => inr None
  | Some v' =>
      match str_validator m v' with
      | inl e => inl e
      | inr s => inr (Some s)
      end
  end.

(** A required field annotated [str]. *)
Definition required_str_validator (m : str_mode) (v : option json)
  : error_type + string :=
  match v with
  | None => inl missing
  | Some v' => str_validator m v'
  end.

(** [class TaskBase(SQLModel)]: [task_name: str],
    [task_description: Optional[str] = None]. *)
Module TaskBase.
Record t : Type := Build {
  task_name : string;
  task_description : option string
}.
End TaskBase.

(** [class TaskCreate(TaskBase): pass]. *)
Module TaskCreate.
Definition t : Type := TaskBase.t.
Definition task_name : t -> string := TaskBase.task_name.
Definition task_description : t -> option string :=
  TaskBase.task_description.

(** Validation of a request body against [TaskCreate]: the body must
    be an object, every field is validated, keys the model does not
    declare are ignored, and the errors of all fields are reported
    together, in field order.  A [null] body is a missing body.  Any
    other body that is no object is refused as such under the strict
    reading; under the coercing one the model is read off it as off an
    object without attributes, and [task_name] is found missing. *)
Definition validate (m : str_mode) (body : json)
  : list validation_error + t :=
  match body with
  | JObj fields =>
      let name := required_str_validator m (obj_get "task_name" fields) in
      let descr :=
        optional_str_validator m (obj_get "task_description" fields) in
      match name, descr with
      | inr n, inr d => inr (TaskBase.Build n d)
      | _, _ =>
          inl (match name with
               | inl e => [ValidationError ["body"; "task_name"] e]
               | inr _ => []
               end ++
               match descr with
               | inl e => [ValidationError ["body"; "task_description"] e]
               | inr _ => []
               end)
      end
  | JNull => inl [ValidationError ["body"] missing]
  | _ =>
      match m with
      | strict_str => inl [ValidationError ["body"] dict_type]
      | coerce_str => inl [ValidationError ["body"; "task_name"] missing]
      end
  end.
End TaskCreate.

(** [class Task(TaskBase, table=True)] with
    [id: int = Field(default=None, primary_key=True)].

    A table class is not validated when it is constructed, and every
    attribute left out is [None]; the same record is the row the
    [task] table holds, where [None] is SQL [NULL]. *)
Module Task.
Record t : Type := Build {
  id : option Z;
  task_name : option string;
  task_description : option string
}.

(** [Task(task_name=n)]: the constructor call of the handler, with
    the two other attributes at their defaults. *)
Definition init (n : string) : t :=
  {| id := None; task_name := Some n; task_description := None |}.
End Task.

End models.


(** ** app/db.py *)

Module db.
Import models.

Definition sqlite_file_name : string := "database.db".
Definition sqlite_url : string :=
  ("sqlite+aiosqlite:///" ++ sqlite_file_name)%string.

(** *** The store *)

(** What [database.db] holds.  The metadata declares one table, [task]
    (from [class Task(..., table=True)]), so the file either has no table
    yet or has [task] with its rows, oldest first. *)
Record store : Type := Store { task : option (list Task.t) }.

(** The file as the engine creates it when it is absent. *)
Definition empty_store : store := Store None.

(** The tables declared by [SQLModel.metadata]. *)
Definition metadata_tables : list string := ["task"].

(** The tables present in the file. *)
Definition table_names (st : store) : list string :=
  match task st with
  | Some _ => ["task"]
  | None => []
  end.

(** The rows of [task]; none when the table is absent. *)
Definition rows (st : store) : list Task.t := default [] (task st).

(** What the driver raises. *)
Inductive exn : Type :=
| OperationalError      (* no such table, table already exists, disk I/O *)
| IntegrityError        (* a NOT NULL or UNIQUE constraint failed *)
| InvalidRequestError   (* the session cannot do what it was asked *)
| ResponseValidationError.

(** The statements sent to the store. *)
Inductive statement : Type :=
| CONNECT | PRAGMA | CREATE_TABLE | INSERT | SELECT | COMMIT.

Global Instance statement_eq_dec : EqDecision statement :=
  ltac:(solve_decision).

(** The storage layer's behaviour during one run, outside the program's
    control: the statement, if any, on which it fails (disk unavailable,
    file not writable). *)
Definition fault : Type := option statement.

Definition fails (f : fault) (s : statement) : bool := bool_decide (f = Some s).

(** *** SQL on the [task] table *)

Definition has_table (st : store) : bool :=
  match task st with
  | Some _ => true
  | None => false
  end.

(** [CREATE TABLE task (...)], which is an error on an existing table. *)
Definition create_table (st : store) : exn + store :=
  match task st with
  | Some _ => inl OperationalError
  | None => inr (Store (Some []))
  end.

(** The keys in use. *)
Definition rowids (rs : list Task.t) : list Z := omap Task.id rs.

(** The largest key of a SQLite table: keys are signed 64-bit. *)
Definition max_rowid : Z := 2 ^ 63 - 1.

(** The key SQLite gives a row inserted without one into a table with an
    [INTEGER PRIMARY KEY]: 1 in an empty table, otherwise one more than
    the largest key in use.  This is SQLite's choice as long as the
    result is at most [max_rowid]; once [max_rowid] itself is in use
    SQLite takes some unused key instead, which this function, on
    Python's unbounded [int], does not follow.  Statements that name the
    key of a new row carry that bound. *)
Definition next_rowid (rs : list Task.t) : Z :=
  match rowids rs with
  | [] => 1
  | i :: is_ => fold_right Z.max i is_ + 1
  end.

(** [INSERT INTO task (task_name, task_description) VALUES (?, ?)], or
    with [id] as well when the object has one.  [task_name] is declared
    [str], hence NOT NULL; [id] is the primary key, hence unique.  The
    result is the key of the new row and the table with the row added. *)
Definition insert (r : Task.t) (st : store) : exn + (Z * store) :=
  match task st with
  | None => inl OperationalError
  | Some rs =>
      match Task.task_name r with
      | None => inl IntegrityError
      | Some _ =>
          let key :=
            match Task.id r with
            | None => Some (next_rowid rs)
            | Some i => if bool_decide (i ∈ rowids rs) then None else Some i
            end in
          match key with
          | None => inl IntegrityError
          | Some i =>
              inr (i, Store (Some (rs ++
                     [Task.Build (Some i) (Task.task_name r)
                                 (Task.task_description r)])))
          end
      end
  end.

(** [SELECT ... FROM task WHERE task.id = ?]. *)
Definition select_by_id (i : Z) (st : store) : exn + option Task.t :=
  match task st with
  | None => inl OperationalError
  | Some rs => inr (List.find (fun r => bool_decide (Task.id r = Some i)) rs)
  end.

(** *** [init_db] *)

(** [SQLModel.metadata.create_all]: for each declared table, look whether
    it exists and create it when it does not. *)
Definition create_all (f : fault) (st : store) : exn + store :=
  if fails f PRAGMA then inl OperationalError
  else if has_table st then inr st
  else if fails f CREATE_TABLE then inl OperationalError
  else create_table st.

(** [async with engine.begin() as conn: await conn.run_sync(create_all)]:
    one transaction, committed when the block ends normally and rolled
    back when it raises.  The result is the committed store, or the
    exception with the file as it was. *)
Definition init_db (f : fault) (st : store) : exn + store :=
  if fails f CONNECT then inl OperationalError
  else
    match create_all f st with
    | inl e => inl e
    | inr st' => if fails f COMMIT then inl OperationalError else inr st'
    end.

(** *** The engine *)

(** [engine = create_async_engine(sqlite_url, ...)] is made once for the
    process, with the pool the library gives a SQLite file by default.
    The source does not choose it, and the two major versions of the ORM
    differ: one opens a connection at each checkout and closes it on
    release ([NullPool]), the other keeps the connection and hands it out
    again ([QueuePool]). *)
Inductive pool_class : Type := NullPool | QueuePool.

(** The engine between two requests: the committed content of
    [database.db], and the connection the pool holds, if it holds one, as
    the store that connection sees.  A connection without an open
    transaction sees the file; one on which a transaction was left open
    sees the file with that transaction's writes. *)
Record engine : Type := Engine {
  file : store;
  pooled : option store
}.

(** The store the next session of the engine will see. *)
Definition seen (e : engine) : store := default (file e) (pooled e).


(** *** The session *)

(** What a request's code runs against.
    - [disk]: the committed content of [database.db];
    - [txn]: the connection the session works on, once it has one, as
      the store that connection sees (the writes of its open transaction
      included);
    - [active]: whether the session has an active transaction on that
      connection;
    - [heap]: the [Task] objects alive in the request, by reference, so
      that what the session writes into an object is what the handler
      reads from it;
    - [new]: the references added to the session and not yet flushed;
    - [io]: how the storage layer behaves during the request;
    - [pool]: the engine's pool. *)
Record world : Type := World {
  disk : store;
  txn : option store;
  active : bool;
  heap : list Task.t;
  new : list nat;
  io : fault;
  pool : pool_class
}.

(** Code that reads and writes the world and may raise. *)
Definition M (A : Type) : Type := world -> (exn + A) * world.

Global Instance M_ret : MRet M := fun A (a : A) w => (inr a, w).

Global Instance M_bind : MBind M := fun A B (k : A -> M B) (c : M A) w =>
  match c w with
  | (inl e, w') => (inl e, w')
  | (inr a, w') => k a w'
  end.

Definition raise {A : Type} (e : exn) : M A := fun w => (inl e, w).

Definition lift {A : Type} (r : exn + A) : M A := fun w => (r, w).

(** Sending a statement: the storage layer may fail on it. *)
Definition execute (s : statement) : M unit := fun w =>
  if fails (io w) s then (inl OperationalError, w) else (inr tt, w).

(** A new Python object; the result is its reference. *)
Definition alloc (o : Task.t) : M nat := fun w =>
  (inr (length (heap w)),
   World (disk w) (txn w) (active w) (heap w ++ [o]) (new w) (io w) (pool w)).

(** Reading through a reference.  A reference always comes from
    [alloc]; the second case only makes the function total. *)
Definition deref (r : nat) : M Task.t := fun w =>
  match heap w !! r with
  | Some o => (inr o, w)
  | None => (inl InvalidRequestError, w)
  end.

Definition assign (r : nat) (o : Task.t) : M unit := fun w =>
  (inr tt,
   World (disk w) (txn w) (active w) (<[r := o]> (heap w)) (new w) (io w)
         (pool w)).

(** The store the session's connection sees.  At the first statement it
    has to send, a session takes the connection the pool holds, or
    connects when the pool holds none, and begins its transaction. *)
Definition view : M store := fun w =>
  match txn w with
  | Some st =>
      (inr st, World (disk w) (Some st) true (heap w) (new w) (io w) (pool w))
  | None =>
      if fails (io w) CONNECT then (inl OperationalError, w)
      else (inr (disk w),
            World (disk w) (Some (disk w)) true (heap w) (new w) (io w)
                  (pool w))
  end.

Definition set_view (st : store) : M unit := fun w =>
  (inr tt,
   World (disk w) (Some st) (active w) (heap w) (new w) (io w) (pool w)).

(** [ROLLBACK] of the session's active transaction: its connection sees
    the file again.  A session without an active transaction has nothing
    to roll back. *)
Definition rollback (w : world) : world :=
  if active w
  then World (disk w) ((fun _ => disk w) <$> txn w) false (heap w) (new w)
             (io w) (pool w)
  else w.

(** [session.add(obj)]. *)
Definition add (r : nat) : M unit := fun w =>
  (inr tt,
   World (disk w) (txn w) (active w) (heap w) (new w ++ [r]) (io w) (pool w)).

(** Flushing one pending object: its row is inserted in the transaction
    and the key the store gave it is written into the object. *)
Definition flush_one (r : nat) : M unit :=
  o ← deref r;
  st ← view;
  _ ← execute INSERT;
  '(i, st') ← lift (insert o st);
  _ ← set_view st';
  assign r (Task.Build (Some i) (Task.task_name o) (Task.task_description o)).

Fixpoint flush_all (rs : list nat) : M unit :=
  match rs with
  | [] => mret tt
  | r :: rs' => _ ← flush_one r; flush_all rs'
  end.

(** A flush that fails rolls the session's transaction back before the
    exception goes on. *)
Definition flush : M unit := fun w =>
  match flush_all (new w) w with
  | (inl e, w') => (inl e, rollback w')
  | (inr _, w') =>
      (inr tt,
       World (disk w') (txn w') (active w') (heap w') [] (io w') (pool w'))
  end.

(** [COMMIT] of the session's active transaction: what the transaction
    sees becomes the content of the file, all at once, or the statement
    fails and the file is as it was.  A [COMMIT] that failed leaves the
    session's transaction inactive with its writes still on the
    connection: nothing rolls them back. *)
Definition commit_txn : M unit := fun w =>
  match txn w with
  | Some st =>
      if active w
      then
        if fails (io w) COMMIT
        then (inl OperationalError,
              World (disk w) (Some st) false (heap w) (new w) (io w) (pool w))
        else (inr tt,
              World st (Some st) false (heap w) (new w) (io w) (pool w))
      else (inr tt, w)
  | None => (inr tt, w)
  end.

(** [await session.commit()]: flush, then commit.  The session was made
    with [expire_on_commit=False], so the objects keep their
    attributes. *)
Definition commit : M unit :=
  _ ← flush;
  commit_txn.

(** [await session.refresh(obj)]: the object's row is read again by its
    key and the object's attributes are overwritten with the row's. *)
Definition refresh (r : nat) : M unit :=
  o ← deref r;
  match Task.id o with
  | None => raise InvalidRequestError
  | Some i =>
      st ← view;
      _ ← execute SELECT;
      found ← lift (select_by_id i st);
      match found with
      | None => raise InvalidRequestError
      | Some row => assign r row
      end
  end.

(** A connection going back to the pool: [NullPool] closes it, and an
    open transaction dies with it; [QueuePool] keeps it as it is. *)
Definition release (p : pool_class) (c : option store) : option store :=
  match p with
  | NullPool => None
  | QueuePool => c
  end.

(** Closing the session: an active transaction is rolled back, whatever
    was pending is dropped, and the connection goes back to the pool. *)
Definition close (w : world) : world :=
  let w' := rollback w in
  World (disk w') (release (pool w') (txn w')) false (heap w') []
        (io w') (pool w').

(** [get_session]: the body that receives the yielded session runs
    inside [async with async_session() as session], which closes the
    session on every way out, an exception of the body included. *)
Definition get_session {A : Type} (body : M A) : M A := fun w =>
  let '(r, w') := body w in (r, close w').

(** The world at the start of a request served by the engine [e]: the
    session is new and will work on the connection the pool holds. *)
Definition checkout (p : pool_class) (f : fault) (e : engine) : world :=
  World (file e) (pooled e) false [] [] f p.

(** The engine a request leaves. *)
Definition checkin (w : world) : engine := Engine (disk w) (txn w).

(** The world at the start of a request that finds no connection in the
    pool and gets one of its own. *)
Definition request_world (f : fault) (st : store) : world :=
  checkout NullPool f (Engine st None).

End db.

(** ** app/main.py *)

Module main.
Import models db.

(** What the framework sends back. *)
Inductive response : Type :=
| JSONResponse (content : json)
| RequestValidationError (detail : list validation_error)
| InternalServerError.

Definition status_code (r : response) : Z :=
  match r with
  | JSONResponse _ => 200
  | RequestValidationError _ => 422
  | InternalServerError => 500
  end.

(** [@app.on_event("startup")]. *)
Definition on_startup : fault -> store -> exn + store := init_db.

(** [@app.get("/ping")]. *)
Definition pong : json := JObj [("ping", JStr "pong!")].

(** [@app.post("/task/", response_model=Task)].  The parameter [task] is
    rebound to the new [Task] in the first line of the body; the result
    is the reference the handler returns. *)
Definition create_task (task : TaskCreate.t) : M nat :=
  task ← alloc (Task.init (TaskCreate.task_name task));
  _ ← add task;
  _ ← commit;
  _ ← refresh task;
  mret task.

Definition json_of_option {A : Type} (f : A -> json) (o : option A) : json :=
  match o with
  | Some a => f a
  | None => JNull
  end.

(** [response_model=Task]: the returned object is written out with the
    fields of [Task], those of [TaskBase] first.  [task_name] is [str]
    there, so an object without one is not a valid response; [id] has
    the default [None], which makes it nullable. *)
Definition serialize_response (o : Task.t) : exn + json :=
  match Task.task_name o with
  | None => inl ResponseValidationError
  | Some n =>
      inr (JObj [("task_name", JStr n);
                 ("task_description",
                  json_of_option JStr (Task.task_description o));
                 ("id", json_of_option JInt (Task.id o))])
  end.

(** The requests the application routes. *)
Inductive request : Type :=
| GET_ping
| POST_task (body : json).

(** One request against the store: the response and the store it leaves.
    For [POST /task/] the framework opens the session dependency,
    validates the body against [TaskCreate], and only with a valid body
    calls the handler; an exception of the handler is a 500. *)
Definition app (m : str_mode) (f : fault) (req : request) (st : store)
  : response * store :=
  match req with
  | GET_ping => (JSONResponse pong, st)
  | POST_task body =>
      match TaskCreate.validate m body with
      | inl errors =>
          let '(_, w) := get_session (mret tt) (request_world f st) in
          (RequestValidationError errors, disk w)
      | inr task =>
          let '(r, w) :=
            get_session (task ← create_task task;
                         o ← deref task;
                         lift (serialize_response o))
                        (request_world f st) in
          (match r with
           | inl _ => InternalServerError
           | inr content => JSONResponse content
           end, disk w)
      end
  end.

(** One request against the engine, whose pool may hold the connection
    an earlier request worked on: the response and the engine the
    request leaves.  [app] is the request that finds no connection in
    the pool. *)
Definition serve (m : str_mode) (p : pool_class) (f : fault) (req : request)
    (e : engine) : response * engine :=
  match req with
  | GET_ping => (JSONResponse pong, e)
  | POST_task body =>
      match TaskCreate.validate m body with
      | inl errors =>
          let '(_, w) := get_session (mret tt) (checkout p f e) in
          (RequestValidationError errors, checkin w)
      | inr task =>
          let '(r, w) :=
            get_session (task ← create_task task;
                         o ← deref task;
                         lift (serialize_response o))
                        (checkout p f e) in
          (match r with
           | inl _ => InternalServerError
           | inr content => JSONResponse content
           end, checkin w)
      end
  end.

(** What happens to the store over the life of the service: the process
    starts (again), or a request is served. *)
Inductive event : Type :=
| Startup (f : fault)
| Request (f : fault) (req : request).

(** A failed startup is fatal and leaves the file as it was. *)
Definition step (m : str_mode) (st : store) (e : event) : store :=
  match e with
  | Startup f =>
      match on_startup f st with
      | inr st' => st'
      | inl _ => st
      end
  | Request f req => snd (app m f req st)
  end.

Definition run (m : str_mode) (es : list event) (st : store) : store :=
  fold_left (step m) es st.

End main.

(** * Properties *)

Import models db main.

(** The row a successful creation appends to the rows [rs], and the
    content of its response. *)
Definition persisted (rs : list Task.t) (n : string) : Task.t :=
  Task.Build (Some (next_rowid rs)) (Some n) None.

Definition created (rs : list Task.t) (n : string) : json :=
  JObj [("task_name", JStr n); ("task_description", JNull);
        ("id", JInt (next_rowid rs))].

(** The world in which the handler calls [session.commit()]: the new
    [Task] is the only object and the only pending reference. *)
Definition at_commit (p : pool_class) (f : fault) (e : engine)
    (task : TaskCreate.t) : world :=
  World (file e) (pooled e) false [Task.init (TaskCreate.task_name task)]
        [0%nat] f p.

(** A persisted row as the data model wants it. *)
Definition non_null (r : Task.t) : Prop :=
  is_Some (Task.id r) /\ is_Some (Task.task_name r).

(** The creation request of the specification's example. *)
Definition buy_milk : json :=
  JObj [("task_name", JStr "buy milk"); ("task_description", JStr "2%")].

(** Unfolding the monad down to functions on worlds. *)
Ltac unfold_M :=
  unfold mbind, M_bind, mret, M_ret, raise, lift in *.

Ltac unfold_session :=
  unfold flush_one, view, set_view, execute, deref, assign, alloc, add,
         commit_txn in *;
  unfold_M.

(** ** The store's keys *)

Lemma fold_max_ge (i : Z) (l : list Z) : i <= fold_right Z.max i l.
Proof. induction l as [|j l IH]; simpl; lia. Qed.

Lemma fold_max_upper (i j : Z) (l : list Z) :
  j ∈ l -> j <= fold_right Z.max i l.
Proof.
  induction l as [|k l IH]; intros Hj.
  - by apply elem_of_nil in Hj.
  - apply elem_of_cons in Hj as [->|Hj]; simpl; [lia|].
    specialize (IH Hj). lia.
Qed.

(** Every key in use is below the next one. *)
Lemma rowids_lt_next (rs : list Task.t) (i : Z) :
  i ∈ rowids rs -> i < next_rowid rs.
Proof.
  unfold next_rowid. destruct (rowids rs) as [|j l]; intros Hi.
  - by apply elem_of_nil in Hi.
  - apply elem_of_cons in Hi as [->|Hi].
    + pose proof (fold_max_ge j l). lia.
    + pose proof (fold_max_upper j i l Hi). lia.
Qed.

Lemma next_rowid_fresh (rs : list Task.t) : next_rowid rs ∉ rowids rs.
Proof. intros Hin. apply rowids_lt_next in Hin. lia. Qed.

Lemma elem_of_rowids (rs : list Task.t) (r : Task.t) (i : Z) :
  r ∈ rs -> Task.id r = Some i -> i ∈ rowids rs.
Proof.
  intros Hr Hi. unfold rowids. apply list_elem_of_omap. by exists r.
Qed.

(** Reading back by a key that was not in use finds the row appended
    under it. *)
Lemma find_appended (rs : list Task.t) (i : Z) (n d : option string) :
  i ∉ rowids rs ->
  List.find (fun r => bool_decide (Task.id r = Some i))
            (rs ++ [Task.Build (Some i) n d])
  = Some (Task.Build (Some i) n d).
Proof.
  intros Hfresh. induction rs as [|r rs IH]; simpl.
  - by rewrite bool_decide_eq_true_2.
  - rewrite bool_decide_eq_false_2.
    + apply IH. intros Hin. apply Hfresh. unfold rowids in *. simpl.
      destruct (Task.id r); [by apply elem_of_cons; right | done].
    + intros Hr. apply Hfresh. apply (elem_of_rowids _ r); [|done].
      by apply elem_of_cons; left.
Qed.

Lemma post_no_table m f body task :
  TaskCreate.validate m body = inr task ->
  app m f (POST_task body) (Store None) = (InternalServerError, Store None).
Proof.
  intros Hv. unfold app. rewrite Hv.
  destruct f as [[]|]; reflexivity.
Qed.

(** The handler's run when the storage layer does not fail on what it
    sends: the row is committed under the next key, together with what
    the connection had pending, and the object the handler returns is
    that row. *)
Lemma create_task_run_on p f e rs task :
  (pooled e = None -> fails f CONNECT = false) ->
  fails f INSERT = false -> fails f COMMIT = false ->
  fails f SELECT = false ->
  db.task (seen e) = Some rs ->
  let n := TaskCreate.task_name task in
  let st' := Store (Some (rs ++ [persisted rs n])) in
  create_task task (checkout p f e)
  = (inr 0%nat, World st' (Some st') true [persisted rs n] [] f p).
Proof.
  intros Hc Hi Hm Hs Hrs n st'. destruct e as [st [[v]|]]; simpl in Hrs, Hc.
  - subst v. clear Hc.
    unfold create_task, commit, flush, refresh, checkout.
    repeat first [ progress unfold_session | progress simpl
                 | rewrite Hi | rewrite Hm | rewrite Hs ].
    rewrite find_appended by apply next_rowid_fresh.
    reflexivity.
  - destruct st as [st]. simpl in Hrs. subst st. specialize (Hc eq_refl).
    unfold create_task, commit, flush, refresh, checkout.
    repeat first [ progress unfold_session | progress simpl
                 | rewrite Hc | rewrite Hi | rewrite Hm | rewrite Hs ].
    rewrite find_appended by apply next_rowid_fresh.
    reflexivity.
Qed.

Lemma create_task_run f rs task :
  fails f CONNECT = false -> fails f INSERT = false ->
  fails f COMMIT = false -> fails f SELECT = false ->
  let n := TaskCreate.task_name task in
  let st' := Store (Some (rs ++ [persisted rs n])) in
  create_task task (request_world f (Store (Some rs)))
  = (inr 0%nat, World st' (Some st') true [persisted rs n] [] f NullPool).
Proof.
  intros Hc Hi Hm Hs.
  by apply (create_task_run_on NullPool f (Engine (Store (Some rs)) None)).
Qed.

Lemma post_run m f body task rs :
  TaskCreate.validate m body = inr task ->
  app m f (POST_task body) (Store (Some rs)) =
    if fails f CONNECT || fails f INSERT || fails f COMMIT
    then (InternalServerError, Store (Some rs))
    else if fails f SELECT
    then (InternalServerError,
          Store (Some (rs ++ [persisted rs (TaskCreate.task_name task)])))
    else (JSONResponse (created rs (TaskCreate.task_name task)),
          Store (Some (rs ++ [persisted rs (TaskCreate.task_name task)]))).
Proof.
  intros Hv. unfold app. rewrite Hv.
  destruct f as [[]|]; try reflexivity.
  all: unfold get_session; unfold_M; rewrite create_task_run by reflexivity.
  all: reflexivity.
Qed.

(** The outcome of a valid creation request, by cases on the store. *)
Lemma post_outcome m f body task st :
  TaskCreate.validate m body = inr task ->
  app m f (POST_task body) st =
    match db.task st with
    | None => (InternalServerError, st)
    | Some rs =>
        if fails f CONNECT || fails f INSERT || fails f COMMIT
        then (InternalServerError, st)
        else if fails f SELECT
        then (InternalServerError,
              Store (Some (rs ++ [persisted rs (TaskCreate.task_name task)])))
        else (JSONResponse (created rs (TaskCreate.task_name task)),
              Store (Some (rs ++ [persisted rs (TaskCreate.task_name task)])))
    end.
Proof.
  intros Hv. destruct st as [[rs|]].
  - exact (post_run m f body task rs Hv).
  - exact (post_no_table m f body task Hv).
Qed.

(** ** Nothing reaches the file before [COMMIT] *)

Lemma flush_one_disk r w : disk (flush_one r w).2 = disk w.
Proof.
  unfold flush_one. unfold_session.
  destruct (heap w !! r) as [o|]; simpl; [|done].
  destruct (txn w) as [st|]; simpl.
  - destruct (fails (io w) INSERT); simpl; [done|].
    by destruct (insert o st) as [e|[i st']].
  - destruct (fails (io w) CONNECT); simpl; [done|].
    destruct (fails (io w) INSERT); simpl; [done|].
    by destruct (insert o (disk w)) as [e|[i st']].
Qed.

Lemma flush_all_disk rs w : disk (flush_all rs w).2 = disk w.
Proof.
  revert w. induction rs as [|r rs IH]; intros w; simpl; [done|].
  unfold_M. pose proof (flush_one_disk r w) as H1.
  destruct (flush_one r w) as [[e|[]] w1]; simpl in *; [done|].
  by rewrite IH.
Qed.

Lemma rollback_disk w : disk (rollback w) = disk w.
Proof. unfold rollback. by destruct (active w). Qed.

Lemma flush_disk w : disk (flush w).2 = disk w.
Proof.
  unfold flush. pose proof (flush_all_disk (new w) w) as H1.
  destruct (flush_all (new w) w) as [[e|[]] w1]; simpl in *; [|done].
  by rewrite rollback_disk.
Qed.

(** A [session.commit()] that raises has written nothing to the file. *)
Lemma commit_raises_disk w e w' : commit w = (inl e, w') -> disk w' = disk w.
Proof.
  unfold commit. unfold_M. pose proof (flush_disk w) as H1.
  destruct (flush w) as [[e1|[]] w1]; simpl in *.
  - by intros [= _ <-].
  - unfold commit_txn.
    destruct (txn w1), (active w1), (fails (io w1) COMMIT);
      intros Heq; by simplify_eq/=.
Qed.

Lemma close_disk w : disk (close w) = disk w.
Proof. unfold close. simpl. apply rollback_disk. Qed.

(** Up to the call of [session.commit()] the handler cannot fail. *)
Lemma create_task_at_commit p f e task :
  create_task task (checkout p f e)
  = (_ ← commit; _ ← refresh 0%nat; mret 0%nat) (at_commit p f e task).
Proof. reflexivity. Qed.

(** ** What a request does to the rows *)

(** A request leaves the rows it found where they were and appends at
    most rows with a key and a name. *)
Lemma app_rows m f req st :
  exists extra, rows (app m f req st).2 = rows st ++ extra
                /\ Forall non_null extra.
Proof.
  destruct req as [|body]; simpl.
  { exists []. by rewrite app_nil_r. }
  destruct (TaskCreate.validate m body) as [errors|task] eqn:Hv.
  { exists []. by rewrite app_nil_r. }
  destruct st as [[rs|]].
  - pose proof (post_run m f body task rs Hv) as Hrun. simpl in Hrun.
    rewrite Hv in Hrun. rewrite Hrun.
    destruct (fails f CONNECT || fails f INSERT || fails f COMMIT);
      [|destruct (fails f SELECT)]; simpl.
    + exists []. by rewrite app_nil_r.
    + eexists. split; [done|]. repeat constructor; by eexists.
    + eexists. split; [done|]. repeat constructor; by eexists.
  - pose proof (post_no_table m f body task Hv) as Hrun. simpl in Hrun.
    rewrite Hv in Hrun. rewrite Hrun. exists []. by rewrite app_nil_r.
Qed.

Lemma init_db_rows f st st' : init_db f st = inr st' -> rows st' = rows st.
Proof.
  unfold init_db, create_all, create_table.
  destruct st as [[rs|]]; simpl;
    repeat (case_match; simplify_eq/=); try done; by intros [= <-].
Qed.

Lemma step_non_null m st e :
  Forall non_null (rows st) -> Forall non_null (rows (step m st e)).
Proof.
  intros Hst. destruct e as [f|f req]; simpl.
  - unfold on_startup. destruct (init_db f st) as [e|st'] eqn:Hi; [done|].
    by rewrite (init_db_rows _ _ _ Hi).
  - destruct (app_rows m f req st) as (extra & -> & Hextra).
    by apply Forall_app.
Qed.

(** ** The creation request *)

(** C1 (what the code does on the specification's example).  On a
    started service with no row yet, [POST /task/] with
    [{"task_name":"buy milk","task_description":"2%"}] answers 200 with
    id 1 and name "buy milk", but with [task_description] null, and the
    row it stores has no description either: the "2%" of the request is
    neither persisted nor returned. *)
Theorem post_buy_milk_loses_description (m : str_mode) :
  app m None (POST_task buy_milk) (Store (Some []))
  = (JSONResponse
       (JObj [("task_name", JStr "buy milk"); ("task_description", JNull);
              ("id", JInt 1)]),
     Store (Some [Task.Build (Some 1) (Some "buy milk") None]))
  /\ json_get "task_description" buy_milk = Some (JStr "2%").
Proof. by destruct m. Qed.

(** C2.  For every valid creation payload, whatever it says about
    [task_description]: on a started service whose storage works, the
    request succeeds, the row it adds has [task_description] null and so
    has the response; and under any storage behaviour and in any store,
    every 200 response has [task_description] null and the store is left
    with the rows it had and at most one more, whose description is
    null. *)
Theorem create_task_description_null
    (m : str_mode) (body : json) (task : TaskCreate.t) :
  TaskCreate.validate m body = inr task ->
  (forall rs, exists i,
      app m None (POST_task body) (Store (Some rs))
      = (JSONResponse
           (JObj [("task_name", JStr (TaskCreate.task_name task));
                  ("task_description", JNull); ("id", JInt i)]),
         Store (Some (rs ++ [Task.Build (Some i)
                               (Some (TaskCreate.task_name task)) None]))))
  /\ (forall f st,
        (forall content, (app m f (POST_task body) st).1 = JSONResponse content ->
                         json_get "task_description" content = Some JNull)
        /\ exists extra,
            rows (app m f (POST_task body) st).2 = rows st ++ extra
            /\ (length extra <= 1)%nat
            /\ Forall (fun r => Task.task_description r = None) extra).
Proof.
  intros Hv. split.
  - intros rs. exists (next_rowid rs). by rewrite (post_run _ _ _ _ _ Hv).
  - intros f [[rs|]].
    + rewrite (post_run _ _ _ _ _ Hv).
      destruct (fails f CONNECT || fails f INSERT || fails f COMMIT);
        [|destruct (fails f SELECT)]; simpl.
      * split; [done|]. exists []. rewrite app_nil_r.
        repeat split; [simpl; lia | constructor].
      * split; [done|]. eexists. split; [done|]. split; [done|].
        by repeat constructor.
      * split; [by intros content [= <-]|]. eexists. split; [done|].
        split; [done|]. by repeat constructor.
    + rewrite (post_no_table _ _ _ _ Hv). simpl.
      split; [done|]. exists []. repeat split; [simpl; lia | constructor].
Qed.

Lemma create_task_description_null_witness :
  (forall rs, exists i,
      app strict_str None (POST_task buy_milk) (Store (Some rs))
      = (JSONResponse
           (JObj [("task_name", JStr "buy milk");
                  ("task_description", JNull); ("id", JInt i)]),
         Store (Some (rs ++ [Task.Build (Some i) (Some "buy milk") None]))))
  /\ (forall f st,
        (forall content,
            (app strict_str f (POST_task buy_milk) st).1 = JSONResponse content ->
            json_get "task_description" content = Some JNull)
        /\ exists extra,
            rows (app strict_str f (POST_task buy_milk) st).2 = rows st ++ extra
            /\ (length extra <= 1)%nat
            /\ Forall (fun r => Task.task_description r = None) extra).
Proof.
  apply (create_task_description_null strict_str buy_milk
           (TaskBase.Build "buy milk" (Some "2%"))).
  reflexivity.
Defined.


(** ** The health check *)

(** C4.  In every store, the empty file of a service that never created
    a task included, and whatever the storage layer does, [GET /ping]
    answers 200 with [{"ping": "pong!"}] and leaves the store as it
    was. *)
Theorem ping_fixed_and_pure (m : str_mode) (f : fault) (st : store) :
  app m f GET_ping st = (JSONResponse (JObj [("ping", JStr "pong!")]), st)
  /\ status_code (app m f GET_ping st).1 = 200
  /\ app m f GET_ping empty_store
     = (JSONResponse (JObj [("ping", JStr "pong!")]), empty_store).
Proof. done. Qed.

(** ** Rejected payloads *)

(** C5.  A [POST /task/] whose object has no [task_name] key is answered
    with a 422 whose detail names the field [task_name] of the body as
    missing, and the store after the request is the store before it. *)
Theorem post_without_task_name
    (m : str_mode) (f : fault) (fields : list (string * json)) (st : store) :
  obj_get "task_name" fields = None ->
  exists detail,
    app m f (POST_task (JObj fields)) st = (RequestValidationError detail, st)
    /\ status_code (app m f (POST_task (JObj fields)) st).1 = 422
    /\ ValidationError ["body"; "task_name"] missing ∈ detail.
Proof.
  intros Hname. unfold app, TaskCreate.validate. rewrite Hname. simpl.
  destruct (optional_str_validator m _) as [e|d]; simpl;
    eexists; (split; [done|]); (split; [done|]); apply elem_of_cons; by left.
Qed.

Lemma post_without_task_name_witness :
  exists detail,
    app strict_str None (POST_task (JObj [("task_description", JStr "2%")]))
        (Store (Some []))
    = (RequestValidationError detail, Store (Some []))
    /\ status_code
         (app strict_str None
              (POST_task (JObj [("task_description", JStr "2%")]))
              (Store (Some []))).1 = 422
    /\ ValidationError ["body"; "task_name"] missing ∈ detail.
Proof.
  apply (post_without_task_name strict_str None
           [("task_description", JStr "2%")] (Store (Some []))).
  reflexivity.
Defined.

(** A [task_name] that is not a string, under each reading of [str].
    Read strictly, every such payload is a 422 that names the field and
    changes nothing. *)
Lemma wrong_typed_name_strict
    (f : fault) (fields : list (string * json)) (v : json) (st : store) :
  obj_get "task_name" fields = Some v ->
  (forall s, v <> JStr s) ->
  exists detail e,
    app strict_str f (POST_task (JObj fields)) st
    = (RequestValidationError detail, st)
    /\ ValidationError ["body"; "task_name"] e ∈ detail.
Proof.
  intros Hname Hv. unfold app, TaskCreate.validate. rewrite Hname.
  destruct v as [|b|n|s| |]; try (by destruct (Hv s)); simpl.
  all: destruct (optional_str_validator strict_str _) as [e|d]; simpl.
  all: do 2 eexists; (split; [done|]); apply elem_of_cons; by left.
Qed.

(** [null], arrays and objects are rejected under both readings. *)
Lemma wrong_typed_name_not_scalar
    (m : str_mode) (f : fault) (fields : list (string * json)) (v : json)
    (st : store) :
  obj_get "task_name" fields = Some v ->
  (v = JNull \/ (exists l, v = JArr l) \/ (exists l, v = JObj l)) ->
  exists detail,
    app m f (POST_task (JObj fields)) st = (RequestValidationError detail, st).
Proof.
  intros Hname Hv. unfold app, TaskCreate.validate. rewrite Hname.
  destruct m, Hv as [->|[[l ->]|[l ->]]]; simpl.
  all: destruct (optional_str_validator _ _) as [e|d]; simpl; by eexists.
Qed.

(** When scalars are coerced, a number as [task_name] is accepted and a
    row is created under its text. *)
Lemma wrong_typed_name_coerced :
  app coerce_str None (POST_task (JObj [("task_name", JInt 5)]))
      (Store (Some []))
  = (JSONResponse
       (JObj [("task_name", JStr "5"); ("task_description", JNull);
              ("id", JInt 1)]),
     Store (Some [Task.Build (Some 1) (Some "5") None])).
Proof. reflexivity. Qed.

(** ** Storage failures *)

(** A failure after the commit, while the handler reads the row back, is
    a 500 as well, but the row is in the store. *)
Lemma refresh_failure_keeps_row m body task rs :
  TaskCreate.validate m body = inr task ->
  app m (Some SELECT) (POST_task body) (Store (Some rs))
  = (InternalServerError,
     Store (Some (rs ++ [persisted rs (TaskCreate.task_name task)]))).
Proof. intros Hv. by rewrite (post_run _ _ _ _ _ Hv). Qed.

(** The outcome of a valid creation request on an engine whose pool may
    hold a connection, by cases on where the storage layer fails. *)
Lemma post_serve m p f body task e :
  TaskCreate.validate m body = inr task ->
  serve m p f (POST_task body) e =
    if bool_decide (pooled e = None) && fails f CONNECT
    then (InternalServerError, Engine (file e) None)
    else
      match db.task (seen e) with
      | None =>
          (InternalServerError, Engine (file e) (release p (Some (file e))))
      | Some rs =>
          let st' :=
            Store (Some (rs ++ [persisted rs (TaskCreate.task_name task)])) in
          if fails f INSERT
          then (InternalServerError,
                Engine (file e) (release p (Some (file e))))
          else if fails f COMMIT
          then (InternalServerError, Engine (file e) (release p (Some st')))
          else if fails f SELECT
          then (InternalServerError, Engine st' (release p (Some st')))
          else (JSONResponse (created rs (TaskCreate.task_name task)),
                Engine st' (release p (Some st')))
      end.
Proof.
  intros Hv. unfold serve. rewrite Hv. unfold get_session. unfold_M.
  destruct (bool_decide (pooled e = None) && fails f CONNECT) eqn:Hconn.
  { apply andb_true_iff in Hconn as [Hnone%bool_decide_eq_true Hc].
    destruct e as [st c]. simpl in Hnone. subst c.
    destruct f as [[]|]; try discriminate Hc. by destruct p. }
  destruct (db.task (seen e)) as [rs|] eqn:Hrs.
  - destruct (fails f INSERT) eqn:Hi; [|destruct (fails f COMMIT) eqn:Hm;
      [|destruct (fails f SELECT) eqn:Hs]].
    4:{ rewrite (create_task_run_on p f e rs task); try done.
        intros Hnone. rewrite bool_decide_eq_true_2 in Hconn by done.
        done. }
    all: destruct e as [st [[v]|]]; simpl in Hrs; [|destruct st as [v]];
      simpl in Hrs; subst v.
    all: destruct f as [[]|]; try discriminate; destruct p; try reflexivity.
    all: unfold create_task, commit, flush, refresh, checkout;
      repeat first [ progress unfold_session | progress simpl ];
      rewrite ?find_appended by apply next_rowid_fresh; reflexivity.
  - destruct e as [st [[v]|]]; simpl in Hrs; [|destruct st as [v]];
      simpl in Hrs; subst v.
    all: destruct f as [[]|]; try discriminate; by destruct p.
Qed.

(** A request that finds no connection in the pool is served as [app]
    serves it, whatever the pool. *)
Lemma serve_fresh m p f req st :
  (serve m p f req (Engine st None)).1 = (app m f req st).1
  /\ file (serve m p f req (Engine st None)).2 = (app m f req st).2.
Proof.
  destruct req as [|body]; [done|].
  destruct (TaskCreate.validate m body) as [errors|task] eqn:Hv.
  { unfold serve, app. rewrite Hv. by destruct p. }
  rewrite (post_serve _ _ _ _ _ _ Hv), (post_outcome m f body task st Hv).
  simpl. destruct st as [[rs|]]; simpl;
    destruct f as [[]|]; by destruct p.
Qed.






(** ** Startup *)

(** C8.  After a run of [init_db] that succeeded, from any store, a
    second run (with the storage working) succeeds as well and returns
    the store unchanged, so that two runs leave what one run leaves; it
    sends no [CREATE TABLE]; the rows are those the store had before the
    first run; and the tables of the file are the tables the metadata
    declares. *)
Theorem init_db_idempotent (f : fault) (st st1 : store) :
  init_db f st = inr st1 ->
  init_db None st1 = inr st1
  /\ init_db (Some CREATE_TABLE) st1 = inr st1
  /\ rows st1 = rows st
  /\ table_names st1 = metadata_tables.
Proof.
  intros Hinit. split; [|split; [|split; [by apply (init_db_rows f)|]]].
  all: revert Hinit; unfold init_db, create_all, create_table.
  all: destruct st as [[rs|]]; simpl.
  all: repeat (case_match; simplify_eq/=); try done; by intros [= <-].
Qed.

Lemma init_db_idempotent_witness :
  init_db None (Store (Some [])) = inr (Store (Some []))
  /\ init_db (Some CREATE_TABLE) (Store (Some [])) = inr (Store (Some []))
  /\ rows (Store (Some [])) = rows empty_store
  /\ table_names (Store (Some [])) = metadata_tables.
Proof.
  apply (init_db_idempotent None empty_store (Store (Some []))).
  reflexivity.
Defined.

(** ** The data model's invariant *)

Lemma run_non_null m es st :
  Forall non_null (rows st) -> Forall non_null (rows (run m es st)).
Proof.
  revert st. induction es as [|e es IH]; intros st Hst; simpl; [done|].
  apply IH. by apply step_non_null.
Qed.

(** C9.  In every store reached from the empty file by startups and
    requests ([GET /ping], [POST /task/]), with any payloads and any
    storage failures on the way, every row of [task] has an id and a
    [task_name] that are not null. *)
Theorem persisted_rows_non_null (m : str_mode) (es : list event) :
  Forall (fun r => is_Some (Task.id r) /\ is_Some (Task.task_name r))
         (rows (run m es empty_store)).
Proof. apply run_non_null. constructor. Qed.

(** C10.  After any single request ([GET /ping] or [POST /task/], any
    payload, any storage behaviour) the rows of the store are the rows
    it had before, in place and with every field as it was, followed by
    whatever the request added; in particular each earlier row is still
    there. *)
Theorem requests_keep_rows
    (m : str_mode) (f : fault) (req : request) (st : store) :
  exists extra,
    rows (app m f req st).2 = rows st ++ extra
    /\ Forall (fun r => r ∈ rows (app m f req st).2) (rows st).
Proof.
  destruct (app_rows m f req st) as (extra & Hrows & _).
  exists extra. split; [done|]. rewrite Hrows.
  apply Forall_forall. intros r Hr. apply elem_of_app. by left.
Qed.

(** * Further properties of the handlers *)

(** ** What a creation request depends on *)

(** X1.  Two valid payloads with the same [task_name] are served alike:
    same response and same store, whatever else the payloads hold and
    however the storage behaves. *)
Theorem post_depends_only_on_task_name
    (m : str_mode) (f : fault) (body body' : json)
    (task task' : TaskCreate.t) (st : store) :
  TaskCreate.validate m body = inr task ->
  TaskCreate.validate m body' = inr task' ->
  TaskCreate.task_name task = TaskCreate.task_name task' ->
  app m f (POST_task body) st = app m f (POST_task body') st.
Proof.
  intros Hv Hv' Hname.
  rewrite (post_outcome _ _ _ _ _ Hv), (post_outcome _ _ _ _ _ Hv').
  by rewrite Hname.
Qed.

Lemma post_depends_only_on_task_name_witness :
  app strict_str None (POST_task buy_milk) (Store (Some []))
  = app strict_str None
        (POST_task (JObj [("id", JInt 99); ("task_name", JStr "buy milk")]))
        (Store (Some [])).
Proof.
  apply (post_depends_only_on_task_name strict_str None buy_milk
           (JObj [("id", JInt 99); ("task_name", JStr "buy milk")])
           (TaskBase.Build "buy milk" (Some "2%"))
           (TaskBase.Build "buy milk" None) (Store (Some [])));
    reflexivity.
Defined.

(** ** Keys the model does not declare *)

Lemma obj_get_other_key k k' v l1 l2 :
  k <> k' -> obj_get k (l1 ++ (k', v) :: l2) = obj_get k (l1 ++ l2).
Proof.
  intros Hk. induction l1 as [|[k1 v1] l1 IH]; simpl.
  - apply String.eqb_neq in Hk. rewrite Hk. by destruct (obj_get k l2).
  - by rewrite IH.
Qed.

(** X3.  A key other than [task_name] and [task_description], wherever
    it stands in the body and whatever its value (an [id] chosen by the
    client, say), does not change what the body validates to, nor the
    status of the response, nor the store the request leaves; and when
    the body is valid the whole response is the same. *)
Theorem undeclared_key_ignored
    (m : str_mode) (f : fault) (l1 l2 : list (string * json))
    (k : string) (v : json) (st : store) :
  k <> "task_name" -> k <> "task_description" ->
  (forall task,
      TaskCreate.validate m (JObj (l1 ++ (k, v) :: l2)) = inr task <->
      TaskCreate.validate m (JObj (l1 ++ l2)) = inr task)
  /\ status_code (app m f (POST_task (JObj (l1 ++ (k, v) :: l2))) st).1
     = status_code (app m f (POST_task (JObj (l1 ++ l2))) st).1
  /\ (app m f (POST_task (JObj (l1 ++ (k, v) :: l2))) st).2
     = (app m f (POST_task (JObj (l1 ++ l2))) st).2
  /\ (forall task,
        TaskCreate.validate m (JObj (l1 ++ l2)) = inr task ->
        app m f (POST_task (JObj (l1 ++ (k, v) :: l2))) st
        = app m f (POST_task (JObj (l1 ++ l2))) st).
Proof.
  intros Hn Hd.
  assert (TaskCreate.validate m (JObj (l1 ++ (k, v) :: l2))
          = TaskCreate.validate m (JObj (l1 ++ l2))) as Hv.
  { unfold TaskCreate.validate.
    by rewrite !obj_get_other_key by congruence. }
  unfold app. rewrite Hv. by repeat split.
Qed.

Lemma undeclared_key_ignored_witness :
  (forall task,
      TaskCreate.validate strict_str
        (JObj ([("task_name", JStr "buy milk")] ++ ("id", JInt 99) :: []))
      = inr task <->
      TaskCreate.validate strict_str
        (JObj ([("task_name", JStr "buy milk")] ++ [])) = inr task)
  /\ status_code
       (app strict_str None
          (POST_task (JObj ([("task_name", JStr "buy milk")]
                            ++ ("id", JInt 99) :: [])))
          (Store (Some []))).1
     = status_code
         (app strict_str None
            (POST_task (JObj ([("task_name", JStr "buy milk")] ++ [])))
            (Store (Some []))).1
  /\ (app strict_str None
        (POST_task (JObj ([("task_name", JStr "buy milk")]
                          ++ ("id", JInt 99) :: [])))
        (Store (Some []))).2
     = (app strict_str None
          (POST_task (JObj ([("task_name", JStr "buy milk")] ++ [])))
          (Store (Some []))).2
  /\ (forall task,
        TaskCreate.validate strict_str
          (JObj ([("task_name", JStr "buy milk")] ++ [])) = inr task ->
        app strict_str None
          (POST_task (JObj ([("task_name", JStr "buy milk")]
                            ++ ("id", JInt 99) :: [])))
          (Store (Some []))
        = app strict_str None
            (POST_task (JObj ([("task_name", JStr "buy milk")] ++ [])))
            (Store (Some []))).
Proof.
  apply (undeclared_key_ignored strict_str None
           [("task_name", JStr "buy milk")] [] "id" (JInt 99)
           (Store (Some []))); discriminate.
Defined.

(** ** When a creation succeeds, and when it writes *)

Lemma snoc_neq {A : Type} (l : list A) (x : A) : l ++ [x] <> l.
Proof.
  intros Heq. apply (f_equal length) in Heq.
  rewrite length_app in Heq. simpl in Heq. lia.
Qed.

(** X4.  A valid creation request is answered 200 exactly when the
    [task] table exists and the storage layer fails neither on the
    connection, nor on the insert, nor on the commit, nor on the read of
    the row; in every other case the answer is a 500 (never a 422). *)
Theorem post_succeeds_iff
    (m : str_mode) (f : fault) (body : json) (task : TaskCreate.t)
    (st : store) :
  TaskCreate.validate m body = inr task ->
  (status_code (app m f (POST_task body) st).1 = 200 <->
     has_table st = true /\ fails f CONNECT = false
     /\ fails f INSERT = false /\ fails f COMMIT = false
     /\ fails f SELECT = false)
  /\ (status_code (app m f (POST_task body) st).1 = 200
      \/ status_code (app m f (POST_task body) st).1 = 500).
Proof.
  intros Hv. rewrite (post_outcome _ _ _ _ _ Hv).
  destruct st as [[rs|]]; simpl.
  - destruct f as [[]|]; simpl; split; try tauto; split; try done;
      intros (? & ? & ? & ? & ?); done.
  - split; [|by right]. split; [done|]. by intros [? _].
Qed.

Lemma post_succeeds_iff_witness :
  (status_code (app strict_str (Some INSERT) (POST_task buy_milk)
                    (Store (Some []))).1 = 200 <->
     has_table (Store (Some [])) = true /\ fails (Some INSERT) CONNECT = false
     /\ fails (Some INSERT) INSERT = false /\ fails (Some INSERT) COMMIT = false
     /\ fails (Some INSERT) SELECT = false)
  /\ (status_code (app strict_str (Some INSERT) (POST_task buy_milk)
                       (Store (Some []))).1 = 200
      \/ status_code (app strict_str (Some INSERT) (POST_task buy_milk)
                          (Store (Some []))).1 = 500).
Proof.
  apply (post_succeeds_iff strict_str (Some INSERT) buy_milk
           (TaskBase.Build "buy milk" (Some "2%")) (Store (Some []))).
  reflexivity.
Defined.

(** X5.  A valid creation request that finds no connection in the pool,
    on a table whose next key is within SQLite's range, changes the file
    exactly when the table exists and the storage layer fails neither on
    the connection, nor on the insert, nor on the commit; the change is
    then one row appended under the next key.  A failure while the row
    is read back comes too late to undo it: the answer is a 500 and the
    row is stored. *)
Theorem post_writes_iff
    (m : str_mode) (f : fault) (body : json) (task : TaskCreate.t)
    (st : store) :
  TaskCreate.validate m body = inr task ->
  next_rowid (rows st) <= max_rowid ->
  ((app m f (POST_task body) st).2 <> st <->
     has_table st = true /\ fails f CONNECT = false
     /\ fails f INSERT = false /\ fails f COMMIT = false)
  /\ ((app m f (POST_task body) st).2 = st
      \/ (app m f (POST_task body) st).2
         = Store (Some (rows st ++
                   [Task.Build (Some (next_rowid (rows st)))
                               (Some (TaskCreate.task_name task)) None])))
  /\ (has_table st = true ->
      app m (Some SELECT) (POST_task body) st
      = (InternalServerError,
         Store (Some (rows st ++
                   [Task.Build (Some (next_rowid (rows st)))
                               (Some (TaskCreate.task_name task)) None])))).
Proof.
  intros Hv _. rewrite !(post_outcome _ _ _ _ _ Hv).
  destruct st as [[rs|]]; simpl.
  - assert (Store (Some (rs ++ [persisted rs (TaskCreate.task_name task)]))
            <> Store (Some rs)) as Hne.
    { intros [= Heq]. by apply snoc_neq in Heq. }
    destruct f as [[]|]; simpl; repeat split; try done; try tauto;
      try (by right); try (by left);
      try (by intros (? & ? & ? & ?)); by intros [].
  - repeat split; try done; try (by left); by intros [].
Qed.

Lemma post_writes_iff_witness :
  ((app strict_str (Some SELECT) (POST_task buy_milk) (Store (Some []))).2
     <> Store (Some []) <->
     has_table (Store (Some [])) = true /\ fails (Some SELECT) CONNECT = false
     /\ fails (Some SELECT) INSERT = false
     /\ fails (Some SELECT) COMMIT = false)
  /\ ((app strict_str (Some SELECT) (POST_task buy_milk) (Store (Some []))).2
        = Store (Some [])
      \/ (app strict_str (Some SELECT) (POST_task buy_milk) (Store (Some []))).2
         = Store (Some (rows (Store (Some [])) ++
                   [Task.Build (Some (next_rowid (rows (Store (Some [])))))
                               (Some "buy milk") None])))
  /\ (has_table (Store (Some [])) = true ->
      app strict_str (Some SELECT) (POST_task buy_milk) (Store (Some []))
      = (InternalServerError,
         Store (Some (rows (Store (Some [])) ++
                   [Task.Build (Some (next_rowid (rows (Store (Some [])))))
                               (Some "buy milk") None])))).
Proof.
  apply (post_writes_iff strict_str (Some SELECT) buy_milk
           (TaskBase.Build "buy milk" (Some "2%")) (Store (Some []))).
  - reflexivity.
  - by vm_compute.
Defined.

(** ** What is returned is what is stored *)

(** X6.  Whenever [POST /task/] answers 200, the content of the answer
    has an integer [id], the store left by the request holds a row under
    that id, and the content is that row written out with the fields of
    [Task]. *)
Theorem response_is_stored_row
    (m : str_mode) (f : fault) (body : json) (st : store) (content : json) :
  (app m f (POST_task body) st).1 = JSONResponse content ->
  exists (i : Z) (row : Task.t),
    json_get "id" content = Some (JInt i)
    /\ select_by_id i (app m f (POST_task body) st).2 = inr (Some row)
    /\ serialize_response row = inr content.
Proof.
  destruct (TaskCreate.validate m body) as [errors|task] eqn:Hv.
  { unfold app. by rewrite Hv. }
  rewrite (post_outcome _ _ _ _ _ Hv). destruct st as [[rs|]]; simpl; [|done].
  destruct (fails f CONNECT || fails f INSERT || fails f COMMIT); [done|].
  destruct (fails f SELECT); [done|]. simpl. intros [= <-].
  exists (next_rowid rs), (persisted rs (TaskCreate.task_name task)).
  split; [done|]. split; [|done]. unfold select_by_id, persisted. simpl.
  by rewrite find_appended by apply next_rowid_fresh.
Qed.

Lemma response_is_stored_row_witness :
  exists (i : Z) (row : Task.t),
    json_get "id"
      (JObj [("task_name", JStr "buy milk"); ("task_description", JNull);
             ("id", JInt 8)]) = Some (JInt i)
    /\ select_by_id i
         (app strict_str None (POST_task buy_milk)
              (Store (Some [Task.Build (Some 7) (Some "walk") None]))).2
       = inr (Some row)
    /\ serialize_response row
       = inr (JObj [("task_name", JStr "buy milk");
                    ("task_description", JNull); ("id", JInt 8)]).
Proof.
  apply (response_is_stored_row strict_str None buy_milk
           (Store (Some [Task.Build (Some 7) (Some "walk") None]))).
  reflexivity.
Defined.

(** X7.  The content of a 200 answer of [POST /task/] is itself a valid
    creation payload: it validates to the same [task_name] with no
    description, its [id] being a key the model does not declare. *)
Theorem response_is_valid_payload
    (m : str_mode) (f : fault) (body : json) (st : store) (content : json) :
  (app m f (POST_task body) st).1 = JSONResponse content ->
  exists n,
    json_get "task_name" content = Some (JStr n)
    /\ TaskCreate.validate m content = inr (TaskBase.Build n None).
Proof.
  destruct (TaskCreate.validate m body) as [errors|task] eqn:Hv.
  { unfold app. by rewrite Hv. }
  rewrite (post_outcome _ _ _ _ _ Hv). destruct st as [[rs|]]; simpl; [|done].
  destruct (fails f CONNECT || fails f INSERT || fails f COMMIT); [done|].
  destruct (fails f SELECT); [done|]. simpl. intros [= <-].
  by exists (TaskCreate.task_name task).
Qed.

Lemma response_is_valid_payload_witness :
  exists n,
    json_get "task_name"
      (JObj [("task_name", JStr "buy milk"); ("task_description", JNull);
             ("id", JInt 1)]) = Some (JStr n)
    /\ TaskCreate.validate coerce_str
         (JObj [("task_name", JStr "buy milk"); ("task_description", JNull);
                ("id", JInt 1)])
       = inr (TaskBase.Build n None).
Proof.
  apply (response_is_valid_payload coerce_str None buy_milk (Store (Some []))).
  reflexivity.
Defined.

(** ** Keys over several requests *)

Lemma rowids_snoc rs i n d :
  rowids (rs ++ [Task.Build (Some i) n d]) = rowids rs ++ [i].
Proof. unfold rowids. by rewrite omap_app. Qed.

Lemma fold_max_absorb (a : Z) (l : list Z) :
  Forall (fun y => y <= a) l -> fold_right Z.max a l = a.
Proof.
  induction 1 as [|y l Hy _ IH]; simpl; [done|]. rewrite IH. lia.
Qed.

(** A row appended under a key above all keys in use moves the next key
    just past it. *)
Lemma next_rowid_snoc rs i n d :
  Forall (fun y => y < i) (rowids rs) ->
  next_rowid (rs ++ [Task.Build (Some i) n d]) = i + 1.
Proof.
  intros Hlt. unfold next_rowid. rewrite rowids_snoc.
  destruct (rowids rs) as [|j l]; simpl; [done|].
  apply Forall_cons in Hlt as [Hj Hl].
  rewrite fold_right_app. simpl. rewrite fold_max_absorb; [lia|].
  eapply Forall_impl; [exact Hl|]. simpl. lia.
Qed.

Lemma next_rowid_persisted rs n :
  next_rowid (rs ++ [persisted rs n]) = next_rowid rs + 1.
Proof.
  apply next_rowid_snoc, Forall_forall. intros y Hy.
  by apply rowids_lt_next.
Qed.

(** What one request can do to the rows: nothing, or append the row of
    a creation. *)
Lemma app_rows_cases m f req st :
  rows (app m f req st).2 = rows st
  \/ exists n, rows (app m f req st).2 = rows st ++ [persisted (rows st) n].
Proof.
  destruct req as [|body]; [by left|].
  destruct (TaskCreate.validate m body) as [errors|task] eqn:Hv.
  { left. unfold app. by rewrite Hv. }
  rewrite (post_outcome _ _ _ _ _ Hv). destruct st as [[rs|]]; [|by left].
  simpl. destruct (fails f CONNECT || fails f INSERT || fails f COMMIT);
    [by left|].
  destruct (fails f SELECT); right; by eexists.
Qed.

Lemma step_rows_cases m st e :
  rows (step m st e) = rows st
  \/ exists n, rows (step m st e) = rows st ++ [persisted (rows st) n].
Proof.
  destruct e as [f|f req]; simpl; [|apply app_rows_cases].
  left. unfold on_startup. destruct (init_db f st) as [e|st'] eqn:Hi; [done|].
  by apply (init_db_rows f).
Qed.

(** X8.  Two valid creation requests served one after the other, storage
    working, on a table with room for two more keys within SQLite's
    range, both succeed, and the second gets the id after the first
    one's, also when the two payloads are the same: the store ends with
    the two rows, in order. *)
Theorem consecutive_posts_consecutive_ids
    (m : str_mode) (body1 body2 : json) (task1 task2 : TaskCreate.t)
    (rs : list Task.t) :
  TaskCreate.validate m body1 = inr task1 ->
  TaskCreate.validate m body2 = inr task2 ->
  next_rowid rs < max_rowid ->
  exists (i : Z) (c1 c2 : json) (st1 : store),
    app m None (POST_task body1) (Store (Some rs)) = (JSONResponse c1, st1)
    /\ app m None (POST_task body2) st1
       = (JSONResponse c2,
          Store (Some (rs ++
                   [Task.Build (Some i) (Some (TaskCreate.task_name task1)) None;
                    Task.Build (Some (i + 1))
                               (Some (TaskCreate.task_name task2)) None])))
    /\ json_get "id" c1 = Some (JInt i)
    /\ json_get "id" c2 = Some (JInt (i + 1)).
Proof.
  intros Hv1 Hv2 _.
  exists (next_rowid rs), (created rs (TaskCreate.task_name task1)),
    (created (rs ++ [persisted rs (TaskCreate.task_name task1)])
             (TaskCreate.task_name task2)),
    (Store (Some (rs ++ [persisted rs (TaskCreate.task_name task1)]))).
  rewrite (post_run _ _ _ _ _ Hv1), (post_run _ _ _ _ _ Hv2).
  pose proof (next_rowid_persisted rs (TaskCreate.task_name task1)) as Hnext.
  unfold persisted in Hnext.
  repeat split; simpl; unfold created, persisted;
    rewrite ?Hnext, <- ?app_assoc; done.
Qed.

Lemma consecutive_posts_consecutive_ids_witness :
  exists (i : Z) (c1 c2 : json) (st1 : store),
    app strict_str None (POST_task buy_milk)
        (Store (Some [Task.Build (Some 7) (Some "walk") None]))
    = (JSONResponse c1, st1)
    /\ app strict_str None (POST_task buy_milk) st1
       = (JSONResponse c2,
          Store (Some ([Task.Build (Some 7) (Some "walk") None] ++
                   [Task.Build (Some i) (Some "buy milk") None;
                    Task.Build (Some (i + 1)) (Some "buy milk") None])))
    /\ json_get "id" c1 = Some (JInt i)
    /\ json_get "id" c2 = Some (JInt (i + 1)).
Proof.
  apply (consecutive_posts_consecutive_ids strict_str buy_milk buy_milk
           (TaskBase.Build "buy milk" (Some "2%"))
           (TaskBase.Build "buy milk" (Some "2%"))
           [Task.Build (Some 7) (Some "walk") None]);
    [reflexivity | reflexivity | by vm_compute].
Defined.



Lemma step_keeps_table m st e :
  has_table st = true -> has_table (step m st e) = true.
Proof.
  destruct st as [[rs|]]; [intros _|done].
  destruct e as [f|f [|body]]; [| done |].
  - unfold step, on_startup, init_db, create_all. simpl.
    by repeat (case_match; simplify_eq/=).
  - unfold step.
    destruct (TaskCreate.validate m body) as [errors|task] eqn:Hv.
    + unfold app. by rewrite Hv.
    + rewrite (post_run _ _ _ _ _ Hv).
      by repeat (case_match; simplify_eq/=).
Qed.

(** X10.  Over any sequence of startups and requests, from any store,
    the rows the store had stay where they were, unchanged; rows are
    only ever added after them; and a table that exists keeps
    existing. *)
Theorem run_keeps_rows (m : str_mode) (es : list event) (st : store) :
  (exists extra, rows (run m es st) = rows st ++ extra)
  /\ (has_table st = true -> has_table (run m es st) = true).
Proof.
  revert st. induction es as [|e es IH]; intros st; simpl.
  { split; [|done]. exists []. by rewrite app_nil_r. }
  destruct (IH (step m st e)) as [[extra Hextra] Htable]. split.
  - rewrite Hextra.
    destruct (step_rows_cases m st e) as [->|[n ->]]; [by eexists|].
    rewrite <- app_assoc. by eexists.
  - intros Hst. by apply Htable, step_keeps_table.
Qed.

(** X11.  If no two rows of the store share an id, then no two rows
    share one after any sequence of startups and requests: the key a
    creation gets is never one in use. *)
Theorem run_keeps_keys_unique (m : str_mode) (es : list event) (st : store) :
  NoDup (rowids (rows st)) -> NoDup (rowids (rows (run m es st))).
Proof.
  revert st. induction es as [|e es IH]; intros st Hst; simpl; [done|].
  apply IH. destruct (step_rows_cases m st e) as [->|[n ->]]; [done|].
  unfold persisted. rewrite rowids_snoc. apply NoDup_app.
  split; [done|]. split; [|apply NoDup_singleton].
  intros x Hx ->%list_elem_of_singleton. by apply next_rowid_fresh in Hx.
Qed.

Lemma run_keeps_keys_unique_witness :
  NoDup (rowids (rows (run strict_str
                         [Request None (POST_task buy_milk);
                          Startup None;
                          Request (Some COMMIT) (POST_task buy_milk);
                          Request None (POST_task buy_milk)]
                         (Store (Some [Task.Build (Some 7) (Some "walk") None;
                                       Task.Build (Some 3) (Some "read") None]))))).
Proof.
  apply (run_keeps_keys_unique strict_str
           [Request None (POST_task buy_milk);
            Startup None;
            Request (Some COMMIT) (POST_task buy_milk);
            Request None (POST_task buy_milk)]
           (Store (Some [Task.Build (Some 7) (Some "walk") None;
                         Task.Build (Some 3) (Some "read") None]))).
  compute_done.
Defined.

(** ** Startup *)

(** The runs of [init_db] that succeed, and what they leave. *)
Lemma init_db_succeeds_iff (f : fault) (st st' : store) :
  init_db f st = inr st' <->
    fails f CONNECT = false /\ fails f PRAGMA = false
    /\ fails f COMMIT = false
    /\ (has_table st = true \/ fails f CREATE_TABLE = false)
    /\ st' = Store (Some (rows st)).
Proof.
  unfold init_db, create_all, create_table.
  destruct st as [[rs|]], f as [[]|]; simpl; split;
    try (intros [= <-]); try (intros (? & ? & ? & [?|?] & ->));
    try done; repeat split; auto.
Qed.

Lemma on_startup_result f st st1 :
  on_startup f st = inr st1 -> st1 = Store (Some (rows st)).
Proof. intros Hs. by apply init_db_succeeds_iff in Hs as (_ & _ & _ & _ & ->). Qed.

(** X13.  Creation needs the startup hook: on a file without the [task]
    table a valid creation request is a 500 that changes nothing,
    whereas on the store left by any successful startup (a first one or
    a restart over existing rows whose next key is within SQLite's
    range) the same request, storage working, is a 200 that appends its
    row, under the next key, after the rows that were there. *)
Theorem create_needs_startup
    (m : str_mode) (body : json) (task : TaskCreate.t) :
  TaskCreate.validate m body = inr task ->
  (forall f, app m f (POST_task body) empty_store
             = (InternalServerError, empty_store))
  /\ (forall f st st1,
        on_startup f st = inr st1 ->
        next_rowid (rows st) <= max_rowid ->
        app m None (POST_task body) st1
        = (JSONResponse
             (JObj [("task_name", JStr (TaskCreate.task_name task));
                    ("task_description", JNull);
                    ("id", JInt (next_rowid (rows st)))]),
           Store (Some (rows st ++
                    [Task.Build (Some (next_rowid (rows st)))
                                (Some (TaskCreate.task_name task)) None])))).
Proof.
  intros Hv. split.
  - intros f. exact (post_no_table m f body task Hv).
  - intros f st st1 ->%on_startup_result _.
    by rewrite (post_run _ _ _ _ _ Hv).
Qed.

Lemma create_needs_startup_witness :
  (forall f, app strict_str f (POST_task buy_milk) empty_store
             = (InternalServerError, empty_store))
  /\ (forall f st st1,
        on_startup f st = inr st1 ->
        next_rowid (rows st) <= max_rowid ->
        app strict_str None (POST_task buy_milk) st1
        = (JSONResponse
             (JObj [("task_name", JStr "buy milk");
                    ("task_description", JNull);
                    ("id", JInt (next_rowid (rows st)))]),
           Store (Some (rows st ++
                    [Task.Build (Some (next_rowid (rows st)))
                                (Some "buy milk") None])))).
Proof.
  apply (create_needs_startup strict_str buy_milk
           (TaskBase.Build "buy milk" (Some "2%"))).
  reflexivity.
Defined.
